(** * openrelik-worker-exif: the [extract_exif] task ([src/tasks.py])

    A shallow embedding of the Celery task [command] and of the pieces of
    Python it relies on (truthiness, [dict.get], list objects on the heap,
    [str.join], [bytes.decode]), followed by the properties the
    specification states about it.

    Representation choices.
    - A Python [str] is a Rocq [string] holding the UTF-8 encoding of the
      text; concatenation, [join] and the substring relation agree with the
      code-point view on such strings.
    - A Python [bytes] is a [list byte].
    - Python lists are objects in a store ([heap]); [append] updates the
      store in place and [+] allocates a new list.
    - The collaborators of the task (input resolver, output allocator,
      child process, result builder) are the fields of the class
      [Framework]; they thread an abstract [World] and return normally.
      A run in which [open] or [subprocess.Popen] itself raises (an
      unwritable output directory, a missing [exiftool], an argument
      that is not a string) is outside the model: a child in the log is
      a child that was started and ran to completion.  The properties
      below are stated about the calls that were made, about the runs
      that return a result and about the children that returned, so
      that they also hold of the runs the model leaves out. *)

From Stdlib Require Import ZArith NArith List.
From Stdlib Require Import Strings.Byte Strings.String Strings.Ascii.
From stdpp Require Import base option list strings gmap fin_maps.

Local Open Scope string_scope.
Local Open Scope list_scope.
Set Warnings "-register-all".

(** ** Python values found in a task configuration *)

Inductive pyval :=
| PyNone
| PyBool (b : bool)
| PyInt (z : Z)
| PyStr (s : string)
| PyList (l : list pyval)
| PyDict (kvs : list (string * pyval)).

(** Python's truth value testing ([bool(v)]). *)
Definition truthy (v : pyval) : bool :=
  match v with
  | PyNone => false
  | PyBool b => b
  | PyInt z => negb (z =? 0)%Z
  | PyStr s => negb (String.length s =? 0)%nat
  | PyList l => negb (length l =? 0)%nat
  | PyDict kvs => negb (length kvs =? 0)%nat
  end.

(** [d.get(k, default)]. *)
Definition dict_get {V} (d : gmap string V) (k : string) (dflt : V) : V :=
  default dflt (d !! k).

(** [task_config or {}]: [None] and the empty dict are both falsy. *)
Definition config_or_empty (task_config : option (gmap string pyval))
  : gmap string pyval :=
  match task_config with
  | None => ∅
  | Some d => if bool_decide (size d = 0%nat) then ∅ else d
  end.

(** [input_files or []]. *)
Definition list_or_empty {A} (l : option (list A)) : list A :=
  match l with
  | None => []
  | Some [] => []
  | Some l => l
  end.

(** [str(x)] for a value that is a [str] or [None], as an f-string field
    formats it. *)
Definition py_str (x : option string) : string :=
  match x with
  | Some s => s
  | None => "None"
  end.

(** ** [bytes.decode()] with the default codec (UTF-8, strict)

    The well-formed byte sequences of the Unicode standard: no overlong
    forms, no surrogates, nothing above U+10FFFF. *)

Definition in_range (lo hi b : N) : bool := ((lo <=? b) && (b <=? hi))%N.

Definition is_cont (b : N) : bool := in_range 128 191 b.

Fixpoint utf8_valid_N (bs : list N) : bool :=
  match bs with
  | [] => true
  | b0 :: r0 =>
    if (b0 <=? 127)%N then utf8_valid_N r0 else
    match r0 with
    | [] => false
    | b1 :: r1 =>
      if in_range 194 223 b0 then is_cont b1 && utf8_valid_N r1 else
      match r1 with
      | [] => false
      | b2 :: r2 =>
        if (b0 =? 224)%N
        then in_range 160 191 b1 && is_cont b2 && utf8_valid_N r2
        else if in_range 225 236 b0
        then is_cont b1 && is_cont b2 && utf8_valid_N r2
        else if (b0 =? 237)%N
        then in_range 128 159 b1 && is_cont b2 && utf8_valid_N r2
        else if in_range 238 239 b0
        then is_cont b1 && is_cont b2 && utf8_valid_N r2
        else
        match r2 with
        | [] => false
        | b3 :: r3 =>
          let tail := is_cont b2 && is_cont b3 && utf8_valid_N r3 in
          if (b0 =? 240)%N then in_range 144 191 b1 && tail
          else if in_range 241 243 b0 then is_cont b1 && tail
          else if (b0 =? 244)%N then in_range 128 143 b1 && tail
          else false
        end
      end
    end
  end.

Definition utf8_valid (bs : list byte) : bool :=
  utf8_valid_N (map Byte.to_N bs).

(** ** Exceptions *)

Inductive exn :=
| RuntimeError (msg : string)
| UnicodeDecodeError (object : list byte)
| TypeError (msg : string)
| DanglingRef.

Definition bytes_decode (bs : list byte) : exn + string :=
  if utf8_valid bs then inr (string_of_list_byte bs)
  else inl (UnicodeDecodeError bs).

(** ** The collaborators

    [get_input_files], [create_output_file] and [create_task_result] come
    from [openrelik_worker_common]; [popen_communicate] stands for
    [subprocess.Popen(argv, stdout=fh, stderr=PIPE)] followed by
    [communicate()], and returns the exit code and the captured
    standard error. *)

Abbreviation InputFile := (gmap string string) (only parsing).

(** The objects the task puts in its lists: strings, [None] (what
    [dict.get] gives for a missing key) and serialized output files. *)
Inductive obj (D : Type) :=
| OStr (s : string)
| ONone
| ODict (d : D).
Arguments OStr {D} s.
Arguments ONone {D}.
Arguments ODict {D} d.

Definition obj_of_opt {D} (x : option string) : obj D :=
  match x with
  | Some s => OStr s
  | None => ONone
  end.

Class Framework := {
  World : Type;
  OutputFile : Type;
  OutDict : Type;
  path : OutputFile → string;
  to_dict : OutputFile → OutDict;
  get_input_files : option string → list InputFile → list InputFile;
  create_output_file :
    World → option string → option string → string → string →
    OutputFile * World;
  popen_communicate :
    World → list (obj OutDict) → string → (Z * list byte) * World;
  create_task_result :
    list (obj OutDict) → option string → string → gmap string string →
    string
}.

(** ** The task's state and its monad *)

Section Task.
Context `{Fw : Framework}.

Abbreviation loc := nat (only parsing).

(** Calls to the collaborators, with what they returned. *)
Inductive call :=
| CallGetInputFiles (pipe_result : option string) (files : list InputFile)
| CallCreateOutputFile (output_path display_name : option string)
    (extension data_type : string) (ret : OutputFile)
| CallOpen (file : string) (mode : string)
| CallPopen (argv : list (obj OutDict)) (stdout : string)
    (returncode : Z) (stderr : list byte)
| CallCreateTaskResult (output_files : list (obj OutDict))
    (workflow_id : option string) (command : string)
    (meta : gmap string string).

Record state := mkState {
  world : World;
  heap : gmap nat (list (obj OutDict));
  calls : list call
}.

Definition M (A : Type) : Type := state → (exn + A) * state.

Definition run {A} (m : M A) (s : state) : (exn + A) * state := m s.

#[global] Instance M_ret : MRet M := λ A x s, (inr x, s).

#[global] Instance M_bind : MBind M := λ A B f m s,
  match m s with
  | (inl e, s') => (inl e, s')
  | (inr x, s') => f x s'
  end.

Definition raise {A} (e : exn) : M A := λ s, (inl e, s).

Definition lift_exn {A} (r : exn + A) : M A := λ s, (r, s).

Definition record (c : call) : M unit := λ s,
  (inr (), mkState (world s) (heap s) (calls s ++ [c])).

(** A list display or [l1 + l2]: a new list object. *)
Definition new_list (l : list (obj OutDict)) : M loc := λ s,
  let r := fresh (dom (heap s)) in
  (inr r, mkState (world s) (<[r := l]> (heap s)) (calls s)).

Definition deref (r : loc) : M (list (obj OutDict)) := λ s,
  match heap s !! r with
  | Some l => (inr l, s)
  | None => (inl DanglingRef, s)
  end.

(** [r.append(x)]: the list object is updated in place. *)
Definition list_append (r : loc) (x : obj OutDict) : M unit := λ s,
  match heap s !! r with
  | Some l => (inr (), mkState (world s) (<[r := l ++ [x]]> (heap s)) (calls s))
  | None => (inl DanglingRef, s)
  end.

(** [l1 + [x]]. *)
Definition list_concat (r : loc) (l2 : list (obj OutDict)) : M loc :=
  l1 ← deref r; new_list (l1 ++ l2).

(** [sep.join(l)]: every item must be a [str]. *)
Fixpoint str_items (l : list (obj OutDict)) : exn + list string :=
  match l with
  | [] => inr []
  | OStr s :: l' =>
    match str_items l' with
    | inr ss => inr (s :: ss)
    | inl e => inl e
    end
  | _ :: _ => inl (TypeError "sequence item: expected str instance")
  end.

Definition str_join (sep : string) (l : list (obj OutDict)) : exn + string :=
  match str_items l with
  | inr ss => inr (String.concat sep ss)
  | inl e => inl e
  end.

(** The collaborators as monadic calls that leave a record. *)
Definition call_get_input_files (pipe_result : option string)
    (input_files : list InputFile) : M (list InputFile) :=
  record (CallGetInputFiles pipe_result input_files);;
  mret (get_input_files pipe_result input_files).

Definition call_create_output_file (output_path display_name : option string)
    (extension data_type : string) : M OutputFile := λ s,
  let '(f, w) :=
    create_output_file (world s) output_path display_name extension data_type in
  (inr f, mkState w (heap s)
            (calls s ++ [CallCreateOutputFile output_path display_name
                           extension data_type f])).

(** [subprocess.Popen(args, stdout=fh, stderr=PIPE)] and [communicate()]
    for a child that starts and runs to completion. *)
Definition spawn (args : list (obj OutDict)) (stdout : string)
  : M (Z * list byte) := λ s,
  let '(r, w) := popen_communicate (world s) args stdout in
  (inr r, mkState w (heap s) (calls s ++ [CallPopen args stdout r.1 r.2])).

Definition call_popen_communicate (argv : loc) (stdout : string)
  : M (Z * list byte) :=
  args ← deref argv; spawn args stdout.

Definition call_create_task_result (output_files : loc)
    (workflow_id : option string) (command : string)
    (meta : gmap string string) : M string :=
  outs ← deref output_files;
  record (CallCreateTaskResult outs workflow_id command meta);;
  mret (create_task_result outs workflow_id command meta).

(** ** [command] *)

(** [for x in xs: body]. *)
Fixpoint for_each {A} (xs : list A) (body : A → M unit) : M unit :=
  match xs with
  | [] => mret ()
  | x :: xs' => body x;; for_each xs' body
  end.

(** Lines 79-106: the body of the loop.  The [with open(...)] of line 95
    is the record [CallOpen]: the file is opened for writing and handed
    to the child as its standard output. *)
Definition process_file (output_path : option string)
    (json_output_enabled : pyval) (base_command output_files : loc)
    (input_file : InputFile) : M unit :=
  let output_file_extension :=
    if truthy json_output_enabled then ".json" else ".txt" in
  let output_file_data_type :=
    if truthy json_output_enabled then "application/json" else "text/plain" in
  output_file ← call_create_output_file output_path
                   (input_file !! "display_name")
                   output_file_extension output_file_data_type;
  current_command ←
    list_concat base_command [obj_of_opt (input_file !! "path")];
  record (CallOpen (path output_file) "w");;
  '(returncode, stderr) ←
    call_popen_communicate current_command (path output_file);
  (if bool_decide (returncode ≠ 0%Z) then
     text ← lift_exn (bytes_decode stderr);
     raise (RuntimeError
              ("ExifTool failed for " +:+ py_str (input_file !! "path")
               +:+ ": " +:+ text))
   else mret ());;
  list_append output_files (ODict (to_dict output_file)).

Definition command (pipe_result : option string)
    (input_files : option (list InputFile))
    (output_path workflow_id : option string)
    (task_config : option (gmap string pyval)) : M string :=
  let task_config := config_or_empty task_config in
  input_files ← call_get_input_files pipe_result (list_or_empty input_files);
  output_files ← new_list [];
  let json_output_enabled :=
    dict_get task_config "json_output" (PyBool false) in
  base_command ← new_list [OStr "exiftool"];
  (if truthy json_output_enabled
   then list_append base_command (OStr "-json")
   else mret ());;
  base_command_string ← (l ← deref base_command; lift_exn (str_join " " l));
  for_each input_files
    (process_file output_path json_output_enabled base_command output_files);;
  outs ← deref output_files;
  (if bool_decide (outs = []) then
     raise (RuntimeError
       "No input files were processed or ExifTool produced no output.")
   else mret ());;
  call_create_task_result output_files workflow_id base_command_string ∅.

(** ** Reading the log of calls *)

Definition popen_argv (c : call) : option (list (obj OutDict)) :=
  match c with
  | CallPopen argv _ _ _ => Some argv
  | _ => None
  end.

Definition popen_returncode (c : call) : option Z :=
  match c with
  | CallPopen _ _ rc _ => Some rc
  | _ => None
  end.

Definition alloc_request (c : call)
  : option (option string * option string * string * string) :=
  match c with
  | CallCreateOutputFile d n e t _ => Some (d, n, e, t)
  | _ => None
  end.

Definition alloc_ret (c : call) : option OutputFile :=
  match c with
  | CallCreateOutputFile _ _ _ _ f => Some f
  | _ => None
  end.

Definition build_request (c : call)
  : option (list (obj OutDict) * option string * string * gmap string string) :=
  match c with
  | CallCreateTaskResult o w c m => Some (o, w, c, m)
  | _ => None
  end.

(** The argument vectors of the child processes, in spawning order. *)
Definition popen_argvs (cs : list call) := omap popen_argv cs.
(** Their exit codes. *)
Definition popen_returncodes (cs : list call) := omap popen_returncode cs.
(** The arguments of the calls to [create_output_file]. *)
Definition alloc_requests (cs : list call) := omap alloc_request cs.
(** The output files these calls returned. *)
Definition alloc_rets (cs : list call) := omap alloc_ret cs.
(** The arguments of the calls to [create_task_result]. *)
Definition build_requests (cs : list call) := omap build_request cs.

(** The task starts with an empty store and an empty log. *)
Definition initial (w : World) : state := mkState w ∅ [].

(** The list [get_input_files] resolves. *)
Definition resolved (pipe_result : option string)
    (input_files : option (list InputFile)) : list InputFile :=
  get_input_files pipe_result (list_or_empty input_files).

(** The list objects [output_files] and [base_command], allocated in
    this order from the store [h]. *)
Definition output_files_loc (h : gmap nat (list (obj OutDict))) : loc :=
  fresh (dom h).

Definition base_command_loc (h : gmap nat (list (obj OutDict))) : loc :=
  fresh (dom (<[output_files_loc h := []]> h)).

(** One turn of the loop, as the log shows it. *)
Record iteration := mkIteration {
  it_input : InputFile;
  it_output : OutputFile;
  it_returncode : Z;
  it_stderr : list byte
}.

(** What the task asks of the collaborators for one input file. *)
Definition base_tokens (j : pyval) : list (obj OutDict) :=
  OStr "exiftool" :: (if truthy j then [OStr "-json"] else []).

Definition argv_of (toks : list (obj OutDict)) (f : InputFile)
  : list (obj OutDict) :=
  toks ++ [obj_of_opt (f !! "path")].

Definition request_of (output_path : option string) (j : pyval)
    (f : InputFile) : option string * option string * string * string :=
  (output_path, f !! "display_name",
   if truthy j then ".json" else ".txt",
   if truthy j then "application/json" else "text/plain").

Definition iteration_calls (output_path : option string) (j : pyval)
    (toks : list (obj OutDict)) (i : iteration) : list call :=
  let '(d, n, e, t) := request_of output_path j (it_input i) in
  [CallCreateOutputFile d n e t (it_output i);
   CallOpen (path (it_output i)) "w";
   CallPopen (argv_of toks (it_input i)) (path (it_output i))
     (it_returncode i) (it_stderr i)].

(** What lines 100-104 raise for a child that exited non-zero. *)
Definition tool_failure (i : iteration) : exn :=
  match bytes_decode (it_stderr i) with
  | inl e => e
  | inr text =>
    RuntimeError ("ExifTool failed for " +:+ py_str (it_input i !! "path")
                  +:+ ": " +:+ text)
  end.

Definition serialized (i : iteration) : obj OutDict :=
  ODict (to_dict (it_output i)).

Definition succeeded (i : iteration) : Prop := it_returncode i = 0%Z.

(** How the loop of lines 78-106 can end: every file processed, or a
    child exits non-zero and the files after it are left alone. *)
Inductive loop_outcome (files : list InputFile)
  : exn + unit → list iteration → Prop :=
| LoopDone its :
    map it_input its = files →
    Forall succeeded its →
    loop_outcome files (inr ()) its
| LoopAborted its0 i rest :
    files = map it_input (its0 ++ [i]) ++ rest →
    Forall succeeded its0 →
    it_returncode i ≠ 0%Z →
    loop_outcome files (inl (tool_failure i)) (its0 ++ [i]).

(** How the task can end. *)
Inductive task_outcome (files : list InputFile) (workflow_id : option string)
    (cmd : string) : exn + string → list iteration → Prop :=
| TaskSuccess its :
    its ≠ [] →
    map it_input its = files →
    Forall succeeded its →
    task_outcome files workflow_id cmd
      (inr (create_task_result (map serialized its) workflow_id cmd ∅)) its
| TaskEmpty :
    files = [] →
    task_outcome files workflow_id cmd
      (inl (RuntimeError
              "No input files were processed or ExifTool produced no output."))
      []
| TaskAborted its0 i rest :
    files = map it_input (its0 ++ [i]) ++ rest →
    Forall succeeded its0 →
    it_returncode i ≠ 0%Z →
    task_outcome files workflow_id cmd (inl (tool_failure i)) (its0 ++ [i]).

(** A run of the task from the initial state: its result, its log and
    its final store. *)
Definition result_of (m : M string) (w : World) : exn + string :=
  (run m (initial w)).1.

Definition log_of (m : M string) (w : World) : list call :=
  calls (run m (initial w)).2.

Definition store_of (m : M string) (w : World)
  : gmap nat (list (obj OutDict)) :=
  heap (run m (initial w)).2.

(** The command strings handed to [create_task_result]. *)
Definition recorded_commands (cs : list call) : list string :=
  (λ b, b.1.2) <$> build_requests cs.

(** What the configuration says under the key [json_output], if it is
    there at all. *)
Definition config_json (task_config : option (gmap string pyval))
  : option pyval :=
  d ← task_config; d !! "json_output".

(** One child process per resolved input file, in input order, each
    with the base command followed by that file's path. *)
Definition spawns_one_per_input (pipe_result : option string)
    (input_files : option (list InputFile))
    (output_path workflow_id : option string)
    (task_config : option (gmap string pyval)) (w : World) : Prop :=
  popen_argvs
    (log_of (command pipe_result input_files output_path workflow_id
               task_config) w) =
  map (λ f, OStr "exiftool"
            :: (if truthy (dict_get (config_or_empty task_config)
                             "json_output" (PyBool false))
                then [OStr "-json"] else [])
            ++ [obj_of_opt (f !! "path")])
      (get_input_files pipe_result (list_or_empty input_files)).

(** The value line 70 reads from the configuration. *)
Definition json_output_enabled (task_config : option (gmap string pyval))
  : pyval :=
  dict_get (config_or_empty task_config) "json_output" (PyBool false).

(** The string line 76 computes from the base command. *)
Definition command_string (j : pyval) : string :=
  if truthy j then "exiftool -json" else "exiftool".

(** The calls of a whole run, given its turns of the loop. *)
Definition task_calls (pipe_result : option string)
    (input_files : option (list InputFile))
    (output_path workflow_id : option string) (j : pyval) (cmd : string)
    (r : exn + string) (its : list iteration) : list call :=
  CallGetInputFiles pipe_result (list_or_empty input_files)
  :: concat (map (iteration_calls output_path j (base_tokens j)) its)
  ++ match r with
     | inr _ => [CallCreateTaskResult (map serialized its) workflow_id cmd ∅]
     | inl _ => []
     end.

(** More of the log: the file each child writes to, the files opened,
    and the calls to the input resolver. *)
Definition popen_stdout (c : call) : option string :=
  match c with
  | CallPopen _ stdout _ _ => Some stdout
  | _ => None
  end.

Definition open_request (c : call) : option (string * string) :=
  match c with
  | CallOpen file mode => Some (file, mode)
  | _ => None
  end.

Definition resolver_request (c : call)
  : option (option string * list InputFile) :=
  match c with
  | CallGetInputFiles p files => Some (p, files)
  | _ => None
  end.

Definition popen_stdouts (cs : list call) := omap popen_stdout cs.
Definition open_requests (cs : list call) := omap open_request cs.
Definition resolver_requests (cs : list call) := omap resolver_request cs.

End Task.

(** ** A scripted framework, as the tests set one up

    The world is the script of the child processes still to run: each
    spawn consumes one outcome (exit code and standard error); past the
    end of the script a child exits with 0 and writes nothing. *)

Module Mock.

Record MockFile := mkMockFile {
  mf_path : string;
  mf_display_name : option string;
  mf_data_type : string
}.

Definition mock_to_dict (f : MockFile) : list (string * string) :=
  [("path", mf_path f);
   ("display_name", py_str (mf_display_name f));
   ("data_type", mf_data_type f)].

Definition mock_create_output_file (w : list (Z * list byte))
    (output_path display_name : option string)
    (extension data_type : string) : MockFile * list (Z * list byte) :=
  (mkMockFile (py_str output_path +:+ "/" +:+ py_str display_name
               +:+ extension)
     display_name data_type, w).

Definition mock_popen (w : list (Z * list byte))
    (argv : list (obj (list (string * string)))) (stdout : string)
  : (Z * list byte) * list (Z * list byte) :=
  match w with
  | [] => ((0%Z, []), [])
  | r :: w' => (r, w')
  end.

#[export] Instance framework : Framework := {|
  World := list (Z * list byte);
  OutputFile := MockFile;
  OutDict := list (string * string);
  path := mf_path;
  to_dict := mock_to_dict;
  get_input_files := λ _ files, files;
  create_output_file := mock_create_output_file;
  popen_communicate := mock_popen;
  create_task_result := λ outs wf cmd meta, "result:" +:+ cmd
|}.

Definition init (w : list (Z * list byte)) : state := mkState w ∅ [].

Definition file (p name : string) : InputFile :=
  <["path" := p]> (<["display_name" := name]> ∅).

(** The configuration [{"json_output": True}]. *)
Definition json_on : option (gmap string pyval) :=
  Some (<["json_output" := PyBool true]> ∅).

(** The output file the allocator gives for [photo] in text mode. *)
Definition photo_txt : MockFile :=
  mkMockFile "/out/photo.jpg.txt" (Some "photo.jpg") "text/plain".

Definition json_map : gmap string pyval :=
  <["json_output" := PyBool true]> ∅.

(** The task as the runs below call it. *)
Definition task (files : list InputFile)
    (task_config : option (gmap string pyval)) : M string :=
  command None (Some files) (Some "/out") (Some "wf-1") task_config.

Definition photo : InputFile := file "/in/photo.jpg" "photo.jpg".
Definition scan : InputFile := file "/in/scan.tif" "scan.tif".

End Mock.


(** ** The task's registration data (lines 22-41) *)

Module Metadata.

(** One entry of the [task_config] list: an option the UI renders. *)
Record config_option := mkOption {
  opt_name : string;
  opt_label : string;
  opt_description : string;
  opt_type : string;
  opt_required : bool;
  opt_default_value : pyval
}.

Record metadata := mkMetadata {
  md_display_name : string;
  md_description : string;
  md_task_config : list config_option
}.

Definition TASK_NAME : string := "openrelik-worker-exif.tasks.extract_exif".

Definition TASK_METADATA : metadata := {|
  md_display_name := "ExifTool Extractor";
  md_description := "Extracts EXIF metadata from files using ExifTool.";
  md_task_config := [
    {| opt_name := "json_output";
       opt_label := "Output in JSON format";
       opt_description :=
         "If checked, ExifTool will output metadata in JSON format. Output files will have a .json extension and 'application/json' MIME type.";
       opt_type := "checkbox";
       opt_required := false;
       opt_default_value := PyBool false |}
  ]
|}.

(** The configuration in which every declared option has its declared
    default value. *)
Definition default_config (md : metadata) : gmap string pyval :=
  list_to_map ((λ o, (opt_name o, opt_default_value o)) <$> md_task_config md).

End Metadata.

(** * Properties *)

Section Properties.
Context `{Fw : Framework}.

Implicit Types (s : state) (f : InputFile) (i : iteration) (j : pyval).

(** ** The decoder *)

(** ASCII text always decodes. *)
Lemma utf8_valid_ascii (bs : list byte) :
  Forall (λ b, (Byte.to_N b <= 127)%N) bs → utf8_valid bs = true.
Proof.
  unfold utf8_valid. induction 1 as [|b bs Hb _ IH]; [done|].
  cbn [map utf8_valid_N]. apply N.leb_le in Hb. by rewrite Hb.
Qed.

(** A byte string that starts with a byte no character starts with (a
    continuation byte, 0xC0, 0xC1, or 0xF5 and above) does not. *)
Lemma utf8_valid_bad_lead (b : byte) (bs : list byte) :
  (128 <= Byte.to_N b <= 193 ∨ 245 <= Byte.to_N b)%N →
  utf8_valid (b :: bs) = false.
Proof.
  intros Hb. unfold utf8_valid. cbn [map utf8_valid_N].
  set (n := Byte.to_N b) in *.
  assert ((n <=? 127)%N = false) as -> by (apply N.leb_gt; lia).
  assert (∀ lo hi, (n < lo ∨ hi < n)%N → in_range lo hi n = false)
    as Hout.
  { intros lo hi H. unfold in_range. apply andb_false_iff.
    rewrite !N.leb_gt. lia. }
  assert (∀ k, (n ≠ k)%N → (n =? k)%N = false) as Hne
    by (intros k; apply N.eqb_neq).
  destruct (map Byte.to_N bs) as [|b1 [|b2 [|b3 r3]]]; [done|..];
    rewrite ?Hout, ?Hne by lia; done.
Qed.

(** ** Running the primitives *)

Lemma run_bind {A B} (m : M A) (k : A → M B) s :
  run (m ≫= k) s =
  match run m s with
  | (inl e, s') => (inl e, s')
  | (inr x, s') => run (k x) s'
  end.
Proof. reflexivity. Qed.

Lemma run_ret {A} (x : A) s : run (mret x) s = (inr x, s).
Proof. reflexivity. Qed.

Lemma run_raise {A} (e : exn) s : run (raise e : M A) s = (inl e, s).
Proof. reflexivity. Qed.

Lemma run_lift_exn {A} (r : exn + A) s : run (lift_exn r) s = (r, s).
Proof. reflexivity. Qed.

Lemma run_record c s :
  run (record c) s = (inr (), mkState (world s) (heap s) (calls s ++ [c])).
Proof. reflexivity. Qed.

Lemma run_new_list l s :
  run (new_list l) s =
  (inr (fresh (dom (heap s))),
   mkState (world s) (<[fresh (dom (heap s)) := l]> (heap s)) (calls s)).
Proof. reflexivity. Qed.

Lemma run_deref r l s :
  heap s !! r = Some l → run (deref r) s = (inr l, s).
Proof. intros H. unfold run, deref. by rewrite H. Qed.

Lemma run_list_append r x l s :
  heap s !! r = Some l →
  run (list_append r x) s =
  (inr (), mkState (world s) (<[r := l ++ [x]]> (heap s)) (calls s)).
Proof. intros H. unfold run, list_append. by rewrite H. Qed.

Lemma run_list_concat r l1 l2 s :
  heap s !! r = Some l1 →
  run (list_concat r l2) s =
  (inr (fresh (dom (heap s))),
   mkState (world s) (<[fresh (dom (heap s)) := l1 ++ l2]> (heap s)) (calls s)).
Proof.
  intros H. unfold list_concat. rewrite run_bind, (run_deref _ _ _ H).
  apply run_new_list.
Qed.

Lemma run_create_output_file d n e t s :
  run (call_create_output_file d n e t) s =
  let r := create_output_file (world s) d n e t in
  (inr r.1, mkState r.2 (heap s)
              (calls s ++ [CallCreateOutputFile d n e t r.1])).
Proof.
  unfold run, call_create_output_file.
  by destruct (create_output_file (world s) d n e t).
Qed.

Lemma run_popen_communicate r args out s :
  heap s !! r = Some args →
  run (call_popen_communicate r out) s =
  let p := popen_communicate (world s) args out in
  (inr p.1, mkState p.2 (heap s)
              (calls s ++ [CallPopen args out p.1.1 p.1.2])).
Proof.
  intros H. unfold call_popen_communicate.
  rewrite run_bind, (run_deref _ _ _ H). unfold run, spawn.
  by destruct (popen_communicate (world s) args out).
Qed.

(** A fresh location is not one already in the store. *)
Lemma fresh_loc_ne (h : gmap nat (list (obj OutDict))) r l :
  h !! r = Some l → fresh (dom h) ≠ r.
Proof.
  intros H Heq. apply (is_fresh (dom h)). rewrite Heq.
  apply elem_of_dom. eauto.
Qed.

(** One turn of the loop: the calls it makes, what it raises, and what it
    leaves in the two list objects. *)
Lemma process_file_step output_path j bc ofl f s toks outs :
  bc ≠ ofl →
  heap s !! bc = Some toks →
  heap s !! ofl = Some outs →
  ∃ i s',
    it_input i = f ∧
    run (process_file output_path j bc ofl f) s =
      (if bool_decide (it_returncode i ≠ 0%Z)
       then inl (tool_failure i) else inr (), s') ∧
    calls s' = calls s ++ iteration_calls output_path j toks i ∧
    heap s' !! bc = Some toks ∧
    heap s' !! ofl =
      Some (if bool_decide (it_returncode i ≠ 0%Z) then outs
            else outs ++ [serialized i]).
Proof.
  intros Hne Hbc Hofl.
  pose proof (fresh_loc_ne _ _ _ Hbc) as Hfb.
  pose proof (fresh_loc_ne _ _ _ Hofl) as Hfo.
  unfold process_file.
  rewrite run_bind, run_create_output_file. cbv zeta.
  destruct (create_output_file (world s) output_path (f !! "display_name")
              (if truthy j then ".json" else ".txt")
              (if truthy j then "application/json" else "text/plain"))
    as [o w1] eqn:Hcreate.
  cbn [fst snd].
  rewrite run_bind, (run_list_concat _ toks) by done. cbn [heap world calls].
  rewrite run_bind, run_record. cbn [heap world calls].
  rewrite run_bind.
  rewrite (run_popen_communicate _ (toks ++ [obj_of_opt (f !! "path")]))
    by (cbn [heap]; apply lookup_insert_eq).
  cbv zeta. cbn [heap world calls].
  destruct (popen_communicate w1 (toks ++ [obj_of_opt (f !! "path")]) (path o))
    as [[rc err] w2] eqn:Hpopen.
  cbn [fst snd].
  exists (mkIteration f o rc err). cbn [it_input it_returncode].
  rewrite run_bind.
  destruct (bool_decide (rc ≠ 0%Z)) eqn:Hrc.
  - rewrite run_bind, run_lift_exn.
    eexists. split; [done|]. split.
    + unfold tool_failure. cbn [it_stderr it_input].
      destruct (bytes_decode err); [reflexivity|].
      rewrite run_raise. reflexivity.
    + cbn [heap calls]. unfold iteration_calls, request_of, argv_of.
      cbn [it_input it_output it_returncode it_stderr].
      rewrite <- !app_assoc. cbn [app].
      rewrite !lookup_insert_ne by done. done.
  - rewrite run_ret.
    rewrite (run_list_append _ _ outs)
      by (cbn [heap]; rewrite lookup_insert_ne; done).
    eexists. split; [done|]. split; [reflexivity|].
    cbn [heap calls]. unfold iteration_calls, request_of, argv_of, serialized.
    cbn [it_input it_output it_returncode it_stderr].
    rewrite <- !app_assoc. cbn [app].
    rewrite lookup_insert_eq, !lookup_insert_ne by done. done.
Qed.

(** The loop: by induction on the files still to process. *)
Lemma for_each_process_file output_path j bc ofl toks files :
  bc ≠ ofl →
  ∀ s outs,
    heap s !! bc = Some toks →
    heap s !! ofl = Some outs →
    ∃ its r s',
      run (for_each files (process_file output_path j bc ofl)) s = (r, s') ∧
      loop_outcome files r its ∧
      calls s' =
        calls s ++ concat (map (iteration_calls output_path j toks) its) ∧
      heap s' !! bc = Some toks ∧
      (r = inr () → heap s' !! ofl = Some (outs ++ map serialized its)).
Proof.
  intros Hne. induction files as [|f files IH]; intros s outs Hbc Hofl.
  - exists [], (inr ()), s. cbn [for_each]. rewrite run_ret.
    split_and!; [done | by constructor | by rewrite app_nil_r | done
                | by rewrite app_nil_r].
  - cbn [for_each]. rewrite run_bind.
    destruct (process_file_step output_path j bc ofl f s toks outs Hne Hbc Hofl)
      as (i & s1 & Hin & Hrun & Hcalls & Hbc1 & Hofl1).
    rewrite Hrun.
    destruct (bool_decide (it_returncode i ≠ 0%Z)) eqn:Hrc.
    + apply bool_decide_eq_true in Hrc.
      exists [i], (inl (tool_failure i)), s1.
      split_and!; [done| |by cbn [map concat]; rewrite app_nil_r|done|done].
      apply (LoopAborted _ [] i files);
        [by rewrite <- Hin | constructor | done].
    + apply bool_decide_eq_false in Hrc.
      assert (it_returncode i = 0%Z) as Hok by lia.
      destruct (IH s1 _ Hbc1 Hofl1)
        as (its & r & s' & Hrun' & Hout & Hc & Hb & Ho).
      exists (i :: its), r, s'. split_and!; [done| | |done|].
      * destruct Hout as [its Hmap Hall | its0 i' rest Hfiles Hall Hfail].
        -- constructor; [cbn [map]; by rewrite Hin, Hmap | by constructor].
        -- apply (LoopAborted _ (i :: its0) i' rest);
             [cbn [map app]; by rewrite Hin, Hfiles | by constructor | done].
      * rewrite Hc, Hcalls. cbn [map concat]. by rewrite <- !app_assoc.
      * intros Hr. rewrite (Ho Hr). cbn [map]. by rewrite <- app_assoc.
Qed.

Lemma str_join_base_tokens j :
  str_join " " (base_tokens j) = inr (command_string j).
Proof. unfold base_tokens, command_string. by destruct (truthy j). Qed.

(** The whole task, from any state: how it ends, what it calls, and what
    the [base_command] list holds afterwards. *)
Lemma command_spec pipe_result input_files output_path workflow_id
    task_config s :
  let j := json_output_enabled task_config in
  ∃ its r s',
    run (command pipe_result input_files output_path workflow_id task_config) s
      = (r, s') ∧
    task_outcome (resolved pipe_result input_files) workflow_id
      (command_string j) r its ∧
    calls s' = calls s ++ task_calls pipe_result input_files output_path
                            workflow_id j (command_string j) r its ∧
    heap s' !! base_command_loc (heap s) = Some (base_tokens j).
Proof.
  intros j. unfold command. cbv zeta. fold (json_output_enabled task_config).
  fold j. unfold call_get_input_files.
  rewrite run_bind. rewrite (run_bind (record _)), run_record, run_ret.
  rewrite run_bind, run_new_list.
  cbn [heap world calls].
  fold (output_files_loc (heap s)).
  set (ofl := output_files_loc (heap s)).
  rewrite run_bind, run_new_list. cbn [heap world calls].
  change (base_command_loc (heap s)) with (fresh (dom (<[ofl:=[]]> (heap s)))).
  set (bc := fresh (dom (<[ofl:=[]]> (heap s)))).
  set (cs := calls s ++
             [CallGetInputFiles pipe_result (list_or_empty input_files)]).
  assert (bc ≠ ofl) as Hne
    by (apply (fresh_loc_ne _ _ []), lookup_insert_eq).
  (* the optional [-json] *)
  set (s2 := mkState _ _ _).
  assert (∃ s3,
    run (if truthy j then list_append bc (OStr "-json") else mret ()) s2
      = (inr (), s3) ∧
    heap s3 !! bc = Some (base_tokens j) ∧ heap s3 !! ofl = Some [] ∧
    calls s3 = cs) as (s3 & Hrun3 & Hbc & Hofl & Hcs).
  { unfold base_tokens. destruct (truthy j).
    - rewrite (run_list_append _ _ [OStr "exiftool"])
        by (subst s2; cbn [heap]; apply lookup_insert_eq).
      eexists. split; [reflexivity|]. subst s2. cbn [heap calls].
      rewrite lookup_insert_eq, !lookup_insert_ne, lookup_insert_eq by done.
      done.
    - rewrite run_ret. exists s2. split; [done|]. subst s2. cbn [heap calls].
      rewrite lookup_insert_eq, lookup_insert_ne, lookup_insert_eq by done.
      done. }
  rewrite run_bind, Hrun3.
  rewrite run_bind, run_bind, (run_deref _ _ _ Hbc), run_lift_exn,
    str_join_base_tokens.
  (* the loop *)
  rewrite run_bind.
  destruct (for_each_process_file output_path j bc ofl (base_tokens j)
              (get_input_files pipe_result (list_or_empty input_files))
              Hne s3 [] Hbc Hofl)
    as (its & r & s4 & Hrun4 & Hout & Hcalls & Hbc4 & Hofl4).
  rewrite Hrun4. rewrite Hcs in Hcalls. subst cs.
  destruct Hout as [its Hmap Hall | its0 i rest Hfiles Hall Hfail].
  - (* every file processed *)
    specialize (Hofl4 eq_refl). cbn [app] in Hofl4.
    rewrite run_bind, (run_deref _ _ _ Hofl4), run_bind.
    destruct its as [|i its].
    + exists [], (inl (RuntimeError
        "No input files were processed or ExifTool produced no output.")), s4.
      cbn [map]. rewrite bool_decide_eq_true_2, run_raise by done.
      split_and!; [done | by constructor | | done].
      rewrite Hcalls. unfold task_calls. cbn [map concat app].
      by rewrite <- app_assoc.
    + rewrite bool_decide_eq_false_2, run_ret by done.
      unfold call_create_task_result.
      rewrite run_bind, (run_deref _ _ _ Hofl4), run_bind, run_record, run_ret.
      eexists (i :: its), _, _. split; [reflexivity|].
      split_and!; [by constructor | | done].
      cbn [calls]. rewrite Hcalls. unfold task_calls.
      by rewrite <- !app_assoc.
  - (* a child exited non-zero *)
    exists (its0 ++ [i]), (inl (tool_failure i)), s4.
    split_and!; [done | by econstructor | | done].
    rewrite Hcalls. unfold task_calls. by rewrite <- !app_assoc, app_nil_r.
Qed.

(** ** The log of a run *)

Lemma omap_iteration_calls {B} (g : call → option B) (x : iteration → B)
    output_path j toks its :
  (∀ i, omap g (iteration_calls output_path j toks i) = [x i]) →
  omap g (concat (map (iteration_calls output_path j toks) its)) = map x its.
Proof.
  intros Hg. induction its as [|i its IH]; [done|].
  cbn [map concat]. by rewrite omap_app, Hg, IH.
Qed.

Section Log.
Variables (pipe_result : option string) (input_files : option (list InputFile))
  (output_path workflow_id : option string) (j : pyval) (cmd : string)
  (r : exn + string) (its : list iteration).

Let cs :=
  task_calls pipe_result input_files output_path workflow_id j cmd r its.

Lemma popen_argvs_task_calls :
  popen_argvs cs = map (λ i, argv_of (base_tokens j) (it_input i)) its.
Proof.
  unfold cs, task_calls, popen_argvs. cbn [omap popen_argv list_omap].
  rewrite omap_app,
    (omap_iteration_calls popen_argv
       (λ i, argv_of (base_tokens j) (it_input i))) by done.
  destruct r; cbn; by rewrite app_nil_r.
Qed.

Lemma popen_returncodes_task_calls :
  popen_returncodes cs = map it_returncode its.
Proof.
  unfold cs, task_calls, popen_returncodes.
  cbn [omap popen_returncode list_omap].
  rewrite omap_app,
    (omap_iteration_calls popen_returncode it_returncode) by done.
  destruct r; cbn; by rewrite app_nil_r.
Qed.


Lemma alloc_rets_task_calls : alloc_rets cs = map it_output its.
Proof.
  unfold cs, task_calls, alloc_rets.
  cbn [omap alloc_ret list_omap].
  rewrite omap_app, (omap_iteration_calls alloc_ret it_output) by done.
  destruct r; cbn; by rewrite app_nil_r.
Qed.

Lemma build_requests_task_calls :
  build_requests cs =
  match r with
  | inr _ => [(map serialized its, workflow_id, cmd, ∅)]
  | inl _ => []
  end.
Proof.
  unfold cs, task_calls, build_requests.
  cbn [omap build_request list_omap].
  rewrite omap_app.
  assert (omap build_request
            (concat (map (iteration_calls output_path j (base_tokens j)) its))
          = []) as ->.
  { induction its as [|i its' IH]; [done|].
    cbn [map concat]. by rewrite omap_app, IH. }
  by destruct r.
Qed.

End Log.

(** The characterisation of [command_spec] for a run from [initial]. *)
Lemma command_initial pipe_result input_files output_path workflow_id
    task_config w :
  let j := json_output_enabled task_config in
  let m := command pipe_result input_files output_path workflow_id
             task_config in
  ∃ its,
    task_outcome (resolved pipe_result input_files) workflow_id
      (command_string j) (result_of m w) its ∧
    log_of m w = task_calls pipe_result input_files output_path workflow_id j
                   (command_string j) (result_of m w) its ∧
    store_of m w !! base_command_loc ∅ = Some (base_tokens j).
Proof.
  intros j m.
  destruct (command_spec pipe_result input_files output_path workflow_id
              task_config (initial w))
    as (its & r & s' & Hrun & Hout & Hcalls & Hheap).
  exists its. unfold result_of, log_of, store_of. subst m. rewrite Hrun.
  by cbn [fst snd].
Qed.

(** The task ends with a result or with one of its two errors; the
    store never gives out a dangling reference and [join] never meets a
    non-string. *)
Lemma command_result pipe_result input_files output_path workflow_id
    task_config w :
  let r := result_of (command pipe_result input_files output_path
                        workflow_id task_config) w in
  (∃ res, r = inr res) ∨ (∃ msg, r = inl (RuntimeError msg)) ∨
  (∃ bs, r = inl (UnicodeDecodeError bs)).
Proof.
  intros r.
  destruct (command_initial pipe_result input_files output_path workflow_id
              task_config w) as (its & Hout & _).
  fold r in Hout.
  inversion Hout as [its' Hne Hmap Hall | Hnil | its0 i rest Hfiles Hall Hfail];
    [eauto | eauto |].
  right. unfold tool_failure, bytes_decode.
  destruct (utf8_valid (it_stderr i)); eauto.
Qed.

(** The configuration is only looked at through [config_json]. *)
Lemma json_output_enabled_config_json task_config :
  json_output_enabled task_config =
  default (PyBool false) (config_json task_config).
Proof.
  unfold json_output_enabled, config_json, dict_get, config_or_empty.
  destruct task_config as [d|]; cbn; [|done].
  case_bool_decide as Hsize; [|done].
  apply map_size_empty_inv in Hsize. by subst d.
Qed.

(** ** The properties the specification states *)

(** The turns of the loop are those of a prefix of the resolved files. *)
Lemma task_outcome_processed files workflow_id cmd r its :
  task_outcome files workflow_id cmd r its →
  map it_input its = take (length its) files.
Proof.
  intros [its' Hne Hmap Hall | Hnil | its0 i rest Hfiles Hall Hfail].
  - rewrite <- Hmap, take_ge; [done | by rewrite length_map].
  - done.
  - rewrite Hfiles, take_app_length'; [done | by rewrite length_map].
Qed.

(** C1 (amended). When the task returns a result it has spawned exactly N
    child processes for a resolved input list of length N, one per input
    file and in input order, each with the base command tokens followed
    by that single file's path; and on every run the children spawned
    are, in input order and with these argument vectors, those of the
    first files of the list. *)
Theorem C1_one_spawn_per_input pipe_result input_files output_path
    workflow_id task_config w :
  let m := command pipe_result input_files output_path workflow_id
             task_config in
  let argv_for (f : InputFile) : list (obj OutDict) :=
    OStr "exiftool"
    :: (if truthy (dict_get (config_or_empty task_config) "json_output"
                     (PyBool false))
        then [OStr "-json"] else [])
    ++ [obj_of_opt (f !! "path")] in
  (∀ r, result_of m w = inr r →
        spawns_one_per_input pipe_result input_files output_path
          workflow_id task_config w) ∧
  popen_argvs (log_of m w) =
    map argv_for
      (take (length (popen_argvs (log_of m w)))
         (resolved pipe_result input_files)).
Proof.
  intros m argv_for. unfold spawns_one_per_input.
  destruct (command_initial pipe_result input_files output_path workflow_id
              task_config w) as (its & Hout & Hlog & _).
  fold m in Hout, Hlog |- *. rewrite Hlog, popen_argvs_task_calls.
  fold (resolved pipe_result input_files). split.
  - intros r Hres. rewrite Hres in Hout.
    inversion Hout as [its' Hne Hmap Hall | |]. subst its'.
    by rewrite <- Hmap, map_map.
  - apply task_outcome_processed in Hout.
    by rewrite length_map, <- Hout, map_map.
Qed.

(** C2. When the task returns a result, the command string recorded in it
    is exactly "exiftool -json" if [json_output] is [True], and exactly
    "exiftool" if [json_output] is [False] or absent, or the configuration
    is [None]. *)
Theorem C2_recorded_command_string pipe_result input_files output_path
    workflow_id task_config w r :
  let m := command pipe_result input_files output_path workflow_id
             task_config in
  result_of m w = inr r →
  (config_json task_config = Some (PyBool true) →
   recorded_commands (log_of m w) = ["exiftool -json"]) ∧
  (config_json task_config = Some (PyBool false) ∨
   config_json task_config = None →
   recorded_commands (log_of m w) = ["exiftool"]).
Proof.
  intros m Hres.
  destruct (command_initial pipe_result input_files output_path workflow_id
              task_config w) as (its & _ & Hlog & _).
  fold m in Hlog. rewrite Hlog. unfold recorded_commands.
  rewrite build_requests_task_calls, Hres. cbn [fmap list_fmap fst snd].
  rewrite json_output_enabled_config_json.
  split; [intros -> | intros [-> | ->]]; reflexivity.
Qed.


(** C5. If the resolved input list is empty the task raises an error and
    builds no result; and whenever the task does return a result, at least
    one output artifact was produced and passed on. *)
Theorem C5_empty_input_fails pipe_result input_files output_path workflow_id
    task_config w :
  let m := command pipe_result input_files output_path workflow_id
             task_config in
  (resolved pipe_result input_files = [] →
   result_of m w =
     inl (RuntimeError
            "No input files were processed or ExifTool produced no output.") ∧
   build_requests (log_of m w) = []) ∧
  (∀ r, result_of m w = inr r →
        alloc_rets (log_of m w) ≠ [] ∧
        Forall (λ b, b.1.1.1 ≠ []) (build_requests (log_of m w))).
Proof.
  intros m.
  destruct (command_initial pipe_result input_files output_path workflow_id
              task_config w) as (its & Hout & Hlog & _).
  fold m in Hout, Hlog. rewrite Hlog.
  rewrite build_requests_task_calls, alloc_rets_task_calls.
  split.
  - intros Hnil. rewrite Hnil in Hout.
    inversion Hout as [its' Hne Hmap Hall | _ | its0 i rest Hfiles Hall Hfail].
    + by destruct its.
    + done.
    + rewrite map_app in Hfiles. by destruct (map it_input its0).
  - intros r Hres. rewrite Hres in Hout |- *.
    inversion Hout as [its' Hne Hmap Hall | |]. subst its'.
    destruct its as [|i its]; [done|].
    split; [done|]. by repeat constructor.
Qed.

(** C6. Whatever the number of input files and however the task ends,
    the [base_command] list object holds only the tool name and the
    optional [-json] flag afterwards, every child was given that base
    followed by its own file's path only, and every recorded command
    string is the joined base command. *)
Theorem C6_base_command_untouched pipe_result input_files output_path
    workflow_id task_config w :
  let m := command pipe_result input_files output_path workflow_id
             task_config in
  let j :=
    dict_get (config_or_empty task_config) "json_output" (PyBool false) in
  let base : list (obj OutDict) :=
    OStr "exiftool" :: (if truthy j then [OStr "-json"] else []) in
  store_of m w !! base_command_loc ∅ = Some base ∧
  popen_argvs (log_of m w) =
    map (λ f, base ++ [obj_of_opt (f !! "path")])
      (take (length (popen_argvs (log_of m w)))
         (resolved pipe_result input_files)) ∧
  Forall (λ c, c = if truthy j then "exiftool -json" else "exiftool")
    (recorded_commands (log_of m w)).
Proof.
  intros m j base.
  destruct (command_initial pipe_result input_files output_path workflow_id
              task_config w) as (its & Hout & Hlog & Hstore).
  fold m in Hout, Hlog, Hstore. rewrite Hlog.
  split_and!.
  - exact Hstore.
  - apply task_outcome_processed in Hout.
    rewrite popen_argvs_task_calls, length_map, <- Hout, map_map. done.
  - unfold recorded_commands. rewrite build_requests_task_calls.
    destruct (result_of m w); by repeat constructor.
Qed.

(** The task looks at its configuration only through the value read at
    line 70. *)
Lemma command_config pipe_result input_files output_path workflow_id
    task_config task_config' :
  json_output_enabled task_config = json_output_enabled task_config' →
  command pipe_result input_files output_path workflow_id task_config =
  command pipe_result input_files output_path workflow_id task_config'.
Proof.
  intros H. unfold command. cbv zeta.
  fold (json_output_enabled task_config) (json_output_enabled task_config').
  by rewrite H.
Qed.

(** C7. [None], the empty mapping and [{"json_output": False}] are
    equivalent configurations: from any state the task makes the same
    calls, leaves the same state and gives the same result. *)
Theorem C7_default_configurations pipe_result input_files output_path
    workflow_id s :
  let task cfg :=
    run (command pipe_result input_files output_path workflow_id cfg) s in
  task None = task (Some ∅) ∧
  task (Some ∅) = task (Some (<["json_output" := PyBool false]> ∅)).
Proof.
  intros task. subst task. cbv beta.
  split; f_equal; apply command_config;
    rewrite !json_output_enabled_config_json; reflexivity.
Qed.

(** C8. On success the result is what [create_task_result] returns, called
    exactly once, on the serialized output files in the order in which
    they were allocated (one per input file), the workflow id as given,
    the base-command string and an empty metadata map. *)
Theorem C8_result_built_once pipe_result input_files output_path workflow_id
    task_config w r :
  let m := command pipe_result input_files output_path workflow_id
             task_config in
  result_of m w = inr r →
  let outs := map (λ o, ODict (to_dict o)) (alloc_rets (log_of m w)) in
  let cmd :=
    if truthy (dict_get (config_or_empty task_config) "json_output"
                 (PyBool false))
    then "exiftool -json" else "exiftool" in
  build_requests (log_of m w) = [(outs, workflow_id, cmd, ∅)] ∧
  r = create_task_result outs workflow_id cmd ∅ ∧
  length outs = length (resolved pipe_result input_files).
Proof.
  intros m Hres outs cmd.
  destruct (command_initial pipe_result input_files output_path workflow_id
              task_config w) as (its & Hout & Hlog & _).
  fold m in Hout, Hlog. subst outs. rewrite Hlog.
  rewrite build_requests_task_calls, alloc_rets_task_calls, map_map.
  rewrite Hres in Hout |- *.
  inversion Hout as [its' Hne Hmap Hall | |]. subst its'.
  split_and!; [done | done |].
  by rewrite <- Hmap, !length_map.
Qed.


(** A spawn in the log belongs to one of the turns of the loop. *)
Lemma elem_of_task_calls_popen pipe_result input_files output_path
    workflow_id j cmd r its argv stdout rc err :
  CallPopen argv stdout rc err ∈
    task_calls pipe_result input_files output_path workflow_id j cmd r its →
  ∃ i, i ∈ its ∧ argv = argv_of (base_tokens j) (it_input i) ∧
       it_returncode i = rc ∧ it_stderr i = err.
Proof.
  unfold task_calls. rewrite elem_of_cons, elem_of_app.
  intros [Heq | [Hin | Hin]]; [done | |].
  - induction its as [|i its IH]; cbn [map concat] in Hin.
    + by apply elem_of_nil in Hin.
    + apply elem_of_app in Hin as [Hin | Hin].
      * exists i. unfold iteration_calls, request_of in Hin.
        rewrite !elem_of_cons, elem_of_nil in Hin.
        destruct Hin as [? | [? | [Heq | []]]]; [done | done |].
        inversion Heq. split_and!; [left | done..].
      * destruct (IH Hin) as (i' & Hi' & H'). exists i'.
        split; [by right | done].
  - destruct r; [by apply elem_of_nil in Hin|].
    apply list_elem_of_singleton in Hin. done.
Qed.

(** X4. A child that exits non-zero with a standard error that decodes: the
    task raises the error lines 101-104 build, with the file's path and
    the decoded text in its message. *)
Lemma tool_failure_reported pipe_result input_files output_path workflow_id
    task_config w argv stdout rc err :
  let m := command pipe_result input_files output_path workflow_id
             task_config in
  CallPopen argv stdout rc err ∈ log_of m w →
  rc ≠ 0%Z →
  utf8_valid err = true →
  ∃ f, f ∈ resolved pipe_result input_files ∧
       last argv = Some (obj_of_opt (f !! "path")) ∧
       result_of m w =
         inl (RuntimeError ("ExifTool failed for " +:+ py_str (f !! "path")
                            +:+ ": " +:+ string_of_list_byte err)).
Proof.
  intros m Hin Hrc Hutf.
  destruct (command_initial pipe_result input_files output_path workflow_id
              task_config w) as (its & Hout & Hlog & _).
  fold m in Hout, Hlog. rewrite Hlog in Hin.
  apply elem_of_task_calls_popen in Hin as (i & Hi & Hargv & Hirc & Hierr).
  inversion Hout as [its' Hne Hmap Hall | Hnil Hres Hits
                    | its0 i' rest Hfiles Hall Hfail Hres Hits].
  - subst its'. rewrite Forall_forall in Hall. specialize (Hall i Hi).
    unfold succeeded in Hall. congruence.
  - subst its. by apply elem_of_nil in Hi.
  - subst its. apply elem_of_app in Hi as [Hi | Hi].
    + rewrite Forall_forall in Hall. specialize (Hall i Hi).
      unfold succeeded in Hall. congruence.
    + apply list_elem_of_singleton in Hi. subst i'.
      exists (it_input i). split_and!.
      * rewrite Hfiles, map_app. cbn [map]. set_solver.
      * rewrite Hargv. unfold argv_of. by rewrite last_snoc.
      * unfold tool_failure, bytes_decode. by rewrite Hierr, Hutf.
Qed.

(** C10. When a child exits non-zero and its captured standard error is
    not valid UTF-8, decoding it fails: the task raises
    [UnicodeDecodeError], not the error whose message holds the input
    path and the standard-error text. *)
Theorem C10_undecodable_stderr pipe_result input_files output_path
    workflow_id task_config w argv stdout rc err :
  let m := command pipe_result input_files output_path workflow_id
             task_config in
  CallPopen argv stdout rc err ∈ log_of m w →
  rc ≠ 0%Z →
  utf8_valid err = false →
  result_of m w = inl (UnicodeDecodeError err) ∧
  ∀ msg, result_of m w ≠ inl (RuntimeError msg).
Proof.
  intros m Hin Hrc Hutf.
  assert (result_of m w = inl (UnicodeDecodeError err)) as Hres;
    [|by rewrite Hres].
  destruct (command_initial pipe_result input_files output_path workflow_id
              task_config w) as (its & Hout & Hlog & _).
  fold m in Hout, Hlog. rewrite Hlog in Hin.
  apply elem_of_task_calls_popen in Hin as (i & Hi & Hargv & Hirc & Hierr).
  inversion Hout as [its' Hne Hmap Hall | Hnil Hres Hits
                    | its0 i' rest Hfiles Hall Hfail Hres Hits].
  - subst its'. rewrite Forall_forall in Hall. specialize (Hall i Hi).
    unfold succeeded in Hall. congruence.
  - subst its. by apply elem_of_nil in Hi.
  - subst its. apply elem_of_app in Hi as [Hi | Hi].
    + rewrite Forall_forall in Hall. specialize (Hall i Hi).
      unfold succeeded in Hall. congruence.
    + apply list_elem_of_singleton in Hi. subst i'.
      unfold tool_failure, bytes_decode. by rewrite Hierr, Hutf.
Qed.

End Properties.

(** * Further properties of [command] *)

Section MoreProperties.
Context `{Fw : Framework}.
Import Metadata.

Implicit Types (s : state) (f : InputFile) (i : iteration) (j : pyval).

Lemma omap_iteration_calls_nil {B} (g : call → option B)
    output_path j toks its :
  (∀ i, omap g (iteration_calls output_path j toks i) = []) →
  omap g (concat (map (iteration_calls output_path j toks) its)) = [].
Proof.
  intros Hg. induction its as [|i its IH]; [done|].
  cbn [map concat]. by rewrite omap_app, Hg, IH.
Qed.

(** X1. The input resolver is called exactly once, before anything else,
    with the piped result and [input_files or []]: the given list, or the
    empty list when none was given. *)
Theorem resolver_called_once_first pipe_result input_files output_path
    workflow_id task_config w :
  let log := log_of (command pipe_result input_files output_path workflow_id
                       task_config) w in
  head log = Some (CallGetInputFiles pipe_result (default [] input_files)) ∧
  resolver_requests log = [(pipe_result, default [] input_files)].
Proof.
  intros log.
  destruct (command_initial pipe_result input_files output_path workflow_id
              task_config w) as (its & _ & Hlog & _).
  subst log. rewrite Hlog. unfold task_calls, resolver_requests.
  assert (list_or_empty input_files = default [] input_files) as ->
    by (by destruct input_files as [[|]|]).
  split; [done|].
  cbn [omap resolver_request list_omap]. rewrite omap_app.
  rewrite omap_iteration_calls_nil by done.
  by destruct (result_of _ _).
Qed.

(** X2. When the task returns a result, every output file it allocated
    was opened once, in write mode, and was the standard output of
    exactly one child, in allocation order. *)
Theorem output_files_opened_and_written pipe_result input_files output_path
    workflow_id task_config w r :
  let m := command pipe_result input_files output_path workflow_id
             task_config in
  result_of m w = inr r →
  open_requests (log_of m w) =
    map (λ o, (path o, "w")) (alloc_rets (log_of m w)) ∧
  popen_stdouts (log_of m w) = map path (alloc_rets (log_of m w)).
Proof.
  intros m Hres.
  destruct (command_initial pipe_result input_files output_path workflow_id
              task_config w) as (its & _ & Hlog & _).
  fold m in Hlog. rewrite Hlog, alloc_rets_task_calls, !map_map.
  unfold task_calls, open_requests, popen_stdouts.
  cbn [omap open_request popen_stdout list_omap]. rewrite !omap_app.
  rewrite (omap_iteration_calls open_request
             (λ i, (path (it_output i), "w"))) by done.
  rewrite (omap_iteration_calls popen_stdout (λ i, path (it_output i)))
    by done.
  rewrite Hres. cbn. by rewrite !app_nil_r.
Qed.

(** Where a spawn sits among the calls of the turns of the loop. *)
Lemma iteration_calls_before_popen output_path j toks its pre post
    argv stdout rc err :
  concat (map (iteration_calls output_path j toks) its) =
    pre ++ CallPopen argv stdout rc err :: post →
  ∃ pre' d n e t o,
    pre = pre' ++ [CallCreateOutputFile d n e t o; CallOpen stdout "w"] ∧
    path o = stdout.
Proof.
  revert pre. induction its as [|i its IH]; intros pre Heq.
  - by destruct pre.
  - cbn [map concat] in Heq. unfold iteration_calls at 1 in Heq.
    unfold request_of in Heq. cbn [app] in Heq.
    destruct pre as [|c1 [|c2 [|c3 pre]]]; cbn [app] in Heq.
    + discriminate.
    + discriminate.
    + inversion Heq; subst. by eexists [], _, _, _, _, _.
    + inversion Heq as [[H1 H2 H3 Hrest]].
      destruct (IH pre Hrest) as (pre' & d & n & e & t & o & -> & Hp).
      by eexists (_ :: _ :: _ :: pre'), d, n, e, t, o.
Qed.

(** X3. Whenever a child is spawned, the two calls just before it are the
    allocation of an output file and the opening of that file's path in
    write mode, and the child's standard output is that file. *)
Theorem spawn_preceded_by_open pipe_result input_files output_path
    workflow_id task_config w pre post argv stdout rc err :
  log_of (command pipe_result input_files output_path workflow_id
            task_config) w =
    pre ++ CallPopen argv stdout rc err :: post →
  ∃ pre' d n e t o,
    pre = pre' ++ [CallCreateOutputFile d n e t o; CallOpen stdout "w"] ∧
    path o = stdout.
Proof.
  intros Heq.
  destruct (command_initial pipe_result input_files output_path workflow_id
              task_config w) as (its & _ & Hlog & _).
  rewrite Hlog in Heq. unfold task_calls in Heq.
  destruct pre as [|c pre]; [discriminate|].
  cbn [app] in Heq. inversion Heq as [[Hc Hrest]]. clear Heq.
  set (r := result_of _ _) in Hrest.
  assert (∃ post', concat (map (iteration_calls output_path
                     (json_output_enabled task_config)
                     (base_tokens (json_output_enabled task_config))) its)
                   = pre ++ CallPopen argv stdout rc err :: post')
    as [post' Hits].
  { destruct r as [e|res].
    - rewrite app_nil_r in Hrest. eauto.
    - destruct (decide (post = [])) as [->|Hne].
      + apply app_inj_tail in Hrest as [_ Hrest]. discriminate.
      + destruct (exists_last Hne) as (post' & c' & ->).
        rewrite app_comm_cons, app_assoc in Hrest.
        apply app_inj_tail in Hrest as [Hrest _]. eauto. }
  destruct (iteration_calls_before_popen _ _ _ _ _ _ _ _ _ _ Hits)
    as (pre' & d & n & e & t & o & -> & Hp).
  by eexists (_ :: pre'), d, n, e, t, o.
Qed.

(** A spawn in the log is the spawn of one of the turns of the loop. *)
Lemma elem_of_task_calls_spawn pipe_result input_files output_path
    workflow_id j cmd r its argv stdout rc err :
  CallPopen argv stdout rc err ∈
    task_calls pipe_result input_files output_path workflow_id j cmd r its →
  ∃ i, i ∈ its ∧
       CallPopen argv stdout rc err =
       CallPopen (argv_of (base_tokens j) (it_input i)) (path (it_output i))
         (it_returncode i) (it_stderr i).
Proof.
  unfold task_calls. rewrite elem_of_cons, elem_of_app.
  intros [Heq | [Hin | Hin]]; [done | |].
  - induction its as [|i its IH]; cbn [map concat] in Hin.
    + by apply elem_of_nil in Hin.
    + apply elem_of_app in Hin as [Hin | Hin].
      * exists i. unfold iteration_calls, request_of in Hin.
        rewrite !elem_of_cons, elem_of_nil in Hin.
        destruct Hin as [? | [? | [Heq | []]]]; [done | done |].
        split; [left | done].
      * destruct (IH Hin) as (i' & Hi' & H'). exists i'.
        split; [by right | done].
  - destruct r; [by apply elem_of_nil in Hin|].
    apply list_elem_of_singleton in Hin. done.
Qed.

(** X5. A child that exits non-zero is the last thing the task calls: no
    later input file is allocated, opened or spawned,
    [create_task_result] is not called, and every child before it exited
    with zero. *)
Theorem failing_child_is_last_call pipe_result input_files output_path
    workflow_id task_config w argv stdout rc err :
  let log := log_of (command pipe_result input_files output_path workflow_id
                       task_config) w in
  CallPopen argv stdout rc err ∈ log →
  rc ≠ 0%Z →
  last log = Some (CallPopen argv stdout rc err) ∧
  build_requests log = [] ∧
  ∃ before, popen_returncodes log = before ++ [rc] ∧
            Forall (λ rc', rc' = 0%Z) before.
Proof.
  intros log Hin Hrc.
  destruct (command_initial pipe_result input_files output_path workflow_id
              task_config w) as (its & Hout & Hlog & _).
  subst log. rewrite Hlog in Hin |- *.
  rewrite build_requests_task_calls, popen_returncodes_task_calls.
  apply elem_of_task_calls_spawn in Hin as (i & Hi & Heq).
  assert (it_returncode i = rc) as Hirc by (by inversion Heq).
  inversion Hout as [its' Hne Hmap Hall | Hnil Hres Hits
                    | its0 i' rest Hfiles Hall Hfail Hres Hits].
  - subst its'. rewrite Forall_forall in Hall. specialize (Hall i Hi).
    unfold succeeded in Hall. congruence.
  - subst its. by apply elem_of_nil in Hi.
  - subst its. apply elem_of_app in Hi as [Hi | Hi].
    + rewrite Forall_forall in Hall. specialize (Hall i Hi).
      unfold succeeded in Hall. congruence.
    + apply list_elem_of_singleton in Hi. subst i'.
      split_and!; [|done|].
      * unfold task_calls. rewrite app_nil_r, map_app, concat_app.
        cbn [map concat]. rewrite app_nil_r.
        unfold iteration_calls at 2. unfold request_of. rewrite Heq.
        rewrite app_comm_cons.
        change [?a; ?b; ?c] with ([a; b] ++ [c]).
        by rewrite app_assoc, last_snoc.
      * exists (map it_returncode its0). rewrite map_app. cbn [map].
        rewrite Hirc. split; [done|]. by apply Forall_map.
Qed.

(** X6. When the task returns a result, the resolved input list was not
    empty and a child was spawned for every file of it and exited with
    zero. *)
Theorem success_means_every_child_succeeded pipe_result input_files
    output_path workflow_id task_config w r :
  let m := command pipe_result input_files output_path workflow_id
             task_config in
  result_of m w = inr r →
  resolved pipe_result input_files ≠ [] ∧
  popen_returncodes (log_of m w) =
    map (λ _, 0%Z) (resolved pipe_result input_files).
Proof.
  intros m Hres.
  destruct (command_initial pipe_result input_files output_path workflow_id
              task_config w) as (its & Hout & Hlog & _).
  fold m in Hout, Hlog. rewrite Hlog, popen_returncodes_task_calls.
  rewrite Hres in Hout.
  inversion Hout as [its' Hne Hmap Hall | |]. subst its'.
  split; [rewrite <- Hmap; by destruct its|].
  rewrite <- Hmap, map_map. clear -Hall.
  induction Hall as [|i its Hi _ IH]; [done|].
  cbn [map]. by rewrite Hi, IH.
Qed.


(** X8. The task reads no key of its configuration but [json_output]:
    setting any other key changes nothing in the run. *)
Theorem other_keys_ignored pipe_result input_files output_path workflow_id
    (d : gmap string pyval) (k : string) (v : pyval) s :
  k ≠ "json_output" →
  run (command pipe_result input_files output_path workflow_id
         (Some (<[k := v]> d))) s =
  run (command pipe_result input_files output_path workflow_id (Some d)) s.
Proof.
  intros Hk. f_equal. apply command_config.
  rewrite !json_output_enabled_config_json. unfold config_json.
  cbn [mbind option_bind]. by rewrite lookup_insert_ne.
Qed.

(** X9. The registration data and the code agree on the default: the only
    option declared is the key the task reads, and running with every
    declared option at its declared default is running without a
    configuration. *)
Theorem declared_defaults_are_code_defaults pipe_result input_files
    output_path workflow_id s :
  opt_name <$> md_task_config TASK_METADATA = ["json_output"] ∧
  run (command pipe_result input_files output_path workflow_id
         (Some (default_config TASK_METADATA))) s =
  run (command pipe_result input_files output_path workflow_id None) s.
Proof.
  split; [reflexivity|].
  rewrite (command_config _ _ _ _ (Some (default_config TASK_METADATA)) None);
    [done|].
  rewrite !json_output_enabled_config_json. reflexivity.
Qed.

End MoreProperties.

(** ** Concrete runs *)

Section Runs.
Import Mock.

(** The strict decoder on a few byte strings: two-, three- and four-byte
    characters pass; a stray lead byte, an overlong form, a surrogate, a
    code point past U+10FFFF and a truncated character do not. *)
Example utf8_valid_examples :
  utf8_valid [x62; x61; x64] = true ∧
  utf8_valid [xc3; xa9] = true ∧
  utf8_valid [xe2; x82; xac] = true ∧
  utf8_valid [xf0; x9f; x98; x80] = true ∧
  utf8_valid [xff] = false ∧
  utf8_valid [xc0; x80] = false ∧
  utf8_valid [xed; xa0; x80] = false ∧
  utf8_valid [xf4; x90; x80; x80] = false ∧
  utf8_valid [xe2; x82] = false.
Proof. repeat split. Qed.

(** The first scenario of the specification: JSON output, one input file,
    a child that exits with 0. *)
Example scenario_json_success :
  let m := task [photo] json_on in
  result_of m [] = inr "result:exiftool -json" ∧
  alloc_requests (log_of m []) =
    [(Some "/out", Some "photo.jpg", ".json", "application/json")] ∧
  popen_argvs (log_of m []) =
    [[OStr "exiftool"; OStr "-json"; OStr "/in/photo.jpg"]] ∧
  recorded_commands (log_of m []) = ["exiftool -json"].
Proof. vm_compute. repeat split. Qed.

(** The second scenario: no configuration, one input file, a child that
    exits with 1 and writes "bad file" on its standard error. *)
Example scenario_tool_failure :
  result_of (task [photo] None)
    [(1%Z, [x62; x61; x64; x20; x66; x69; x6c; x65])] =
  inl (RuntimeError "ExifTool failed for /in/photo.jpg: bad file").
Proof. vm_compute. reflexivity. Qed.

(** C1, as stated, fails: with two input files and a first child that
    exits with 1, one child process is spawned, not two. *)
Lemma C1_counterexample :
  ¬ spawns_one_per_input (Fw := framework) None (Some [photo; scan])
      (Some "/out") (Some "wf-1") None [(1%Z, [x62; x61; x64])].
Proof. unfold spawns_one_per_input. vm_compute. discriminate. Qed.

Lemma C1_witness :
  spawns_one_per_input (Fw := framework) None (Some [photo; scan])
    (Some "/out") (Some "wf-1") None [].
Proof.
  apply (proj1 (C1_one_spawn_per_input (Fw := framework) None
                  (Some [photo; scan]) (Some "/out") (Some "wf-1") None [])
           "result:exiftool").
  vm_compute. reflexivity.
Defined.

Lemma C2_witness :
  recorded_commands (log_of (task [photo] json_on) []) = ["exiftool -json"] ∧
  recorded_commands (log_of (task [photo] None) []) = ["exiftool"].
Proof.
  split.
  - apply (C2_recorded_command_string (Fw := framework) None (Some [photo])
             (Some "/out") (Some "wf-1") json_on [] "result:exiftool -json").
    + vm_compute. reflexivity.
    + vm_compute. reflexivity.
  - apply (C2_recorded_command_string (Fw := framework) None (Some [photo])
             (Some "/out") (Some "wf-1") None [] "result:exiftool").
    + vm_compute. reflexivity.
    + right. reflexivity.
Defined.


(** C4 fails on the code: a child that exits with 1 and whose standard
    error is the single byte 0xFF makes the task raise
    [UnicodeDecodeError]; no error with the input path and the
    standard-error text is raised. *)
Lemma C4_undecodable_stderr_run :
  let r := result_of (task [photo] None) [(1%Z, [xff])] in
  r = inl (UnicodeDecodeError [xff]) ∧ ∀ msg, r ≠ inl (RuntimeError msg).
Proof. vm_compute. split; [reflexivity | discriminate]. Qed.

Lemma C5_witness :
  result_of (task [] json_on) [] =
    inl (RuntimeError
           "No input files were processed or ExifTool produced no output.") ∧
  build_requests (log_of (task [] json_on) []) = [].
Proof.
  apply (C5_empty_input_fails (Fw := framework) None (Some []) (Some "/out")
           (Some "wf-1") json_on []).
  vm_compute. reflexivity.
Defined.

Lemma C8_witness :
  let m := task [photo; scan] json_on in
  let outs := map (λ o, ODict (to_dict o)) (alloc_rets (log_of m [])) in
  build_requests (log_of m []) =
    [(outs, Some "wf-1", "exiftool -json", ∅)] ∧
  "result:exiftool -json" =
    create_task_result outs (Some "wf-1") "exiftool -json" ∅ ∧
  length outs = 2%nat.
Proof.
  apply (C8_result_built_once (Fw := framework) None (Some [photo; scan])
           (Some "/out") (Some "wf-1") json_on [] "result:exiftool -json").
  vm_compute. reflexivity.
Defined.


Lemma C10_witness :
  result_of (task [photo; scan] None) [(0%Z, []); (1%Z, [xff])] =
  inl (UnicodeDecodeError [xff]).
Proof.
  apply (C10_undecodable_stderr (Fw := framework) None (Some [photo; scan])
           (Some "/out") (Some "wf-1") None [(0%Z, []); (1%Z, [xff])]
           [OStr "exiftool"; OStr "/in/scan.tif"] "/out/scan.tif.txt" 1%Z).
  - vm_compute. set_solver.
  - lia.
  - reflexivity.
Defined.

End Runs.

(** ** More concrete runs *)

Section MoreRuns.
Import Mock.

Lemma spawn_preceded_by_open_witness :
  ∃ pre' d n e t o,
    [CallGetInputFiles (Fw := framework) None [photo];
     CallCreateOutputFile (Some "/out") (Some "photo.jpg") ".txt"
       "text/plain" photo_txt;
     CallOpen "/out/photo.jpg.txt" "w"] =
    pre' ++ [CallCreateOutputFile d n e t o;
             CallOpen "/out/photo.jpg.txt" "w"] ∧
    path o = "/out/photo.jpg.txt".
Proof.
  apply (spawn_preceded_by_open (Fw := framework) None (Some [photo])
           (Some "/out") (Some "wf-1") None [] _
           [CallCreateTaskResult (Fw := framework)
              [ODict (mock_to_dict photo_txt)] (Some "wf-1") "exiftool" ∅]
           [OStr "exiftool"; OStr "/in/photo.jpg"] _ 0%Z []).
  vm_compute. reflexivity.
Defined.

Lemma tool_failure_reported_witness :
  ∃ f, f ∈ [photo; scan] ∧
       last [OStr (D := list (string * string)) "exiftool";
             OStr "/in/scan.tif"] =
         Some (obj_of_opt (f !! "path")) ∧
       result_of (Fw := framework) (task [photo; scan] None)
         [(0%Z, []); (2%Z, [x62; x61; x64])] =
       inl (RuntimeError ("ExifTool failed for " +:+ py_str (f !! "path")
                          +:+ ": " +:+ "bad")).
Proof.
  apply (tool_failure_reported (Fw := framework) None (Some [photo; scan])
           (Some "/out") (Some "wf-1") None
           [(0%Z, []); (2%Z, [x62; x61; x64])]
           [OStr "exiftool"; OStr "/in/scan.tif"] "/out/scan.tif.txt" 2%Z
           [x62; x61; x64]).
  - vm_compute. set_solver.
  - lia.
  - reflexivity.
Defined.

Lemma failing_child_is_last_call_witness :
  let log := log_of (Fw := framework) (task [photo; scan] None)
               [((-9)%Z, [])] in
  let spawn :=
    CallPopen [OStr "exiftool"; OStr "/in/photo.jpg"] "/out/photo.jpg.txt"
      (-9)%Z [] in
  last log = Some spawn ∧
  build_requests log = [] ∧
  ∃ before, popen_returncodes log = before ++ [(-9)%Z] ∧
            Forall (λ rc', rc' = 0%Z) before.
Proof.
  apply (failing_child_is_last_call (Fw := framework) None
           (Some [photo; scan]) (Some "/out") (Some "wf-1") None
           [((-9)%Z, [])]).
  - vm_compute. set_solver.
  - lia.
Defined.


Lemma other_keys_ignored_witness :
  run (task [photo] (Some (<["verbose" := PyBool true]> json_map)))
    (initial []) =
  run (task [photo] (Some json_map)) (initial []).
Proof.
  apply (other_keys_ignored (Fw := framework) None (Some [photo])
           (Some "/out") (Some "wf-1") json_map "verbose" (PyBool true)).
  discriminate.
Defined.

Lemma output_files_opened_and_written_witness :
  let log := log_of (Fw := framework) (task [photo; scan] None) [] in
  open_requests log = map (λ o, (path o, "w")) (alloc_rets log) ∧
  popen_stdouts log = map path (alloc_rets log).
Proof.
  apply (output_files_opened_and_written (Fw := framework) None
           (Some [photo; scan]) (Some "/out") (Some "wf-1") None []
           "result:exiftool").
  vm_compute. reflexivity.
Defined.

Lemma success_means_every_child_succeeded_witness :
  resolved (Fw := framework) None (Some [photo; scan]) ≠ [] ∧
  popen_returncodes (log_of (Fw := framework) (task [photo; scan] None) [])
    = [0%Z; 0%Z].
Proof.
  apply (success_means_every_child_succeeded (Fw := framework) None
           (Some [photo; scan]) (Some "/out") (Some "wf-1") None []
           "result:exiftool").
  vm_compute. reflexivity.
Defined.

End MoreRuns.
